(** * cocli [corim sign]: a shallow embedding of [cmd/corimSign.go]

    The command reads an unsigned CoRIM, its metadata and a signing key,
    optionally attaches a signing certificate and intermediate certificates,
    asks the CoRIM library to produce a COSE Sign1 envelope and saves it.

    [sign] and [checkCorimSignArgs] are translated statement by statement.
    The filesystem ([afero]) and the CoRIM/COSE libraries are not part of the
    repository: they are interfaces here ([Fs], [CorimLib]), and every call
    that [sign] makes to them is recorded, in program order, in a trace. *)

From stdpp Require Import base strings list gmap.
From Stdlib Require Import Strings.Byte NArith.

Local Open Scope string_scope.
Local Open Scope list_scope.
Local Open Scope nat_scope.

(** ** Go values *)

(** [[]byte] *)
Definition bytes : Type := list Byte.byte.

(** Go's [error] values as this file builds them: [errors.New] and a
    verb-free [fmt.Errorf] give a plain message; [fmt.Errorf] with a [%w]
    verb gives a message that wraps its cause. *)
Inductive error : Type :=
| errorString (s : string)
| wrapError (msg : string) (err : error).

(** [err.Error()] *)
Definition Error (e : error) : string :=
  match e with
  | errorString s => s
  | wrapError msg _ => msg
  end.

(** [errors.Unwrap(err)] *)
Definition Unwrap (e : error) : option error :=
  match e with
  | errorString _ => None
  | wrapError _ err => Some err
  end.

(** [errors.New(text)] *)
Definition errors_New (text : string) : error := errorString text.

(** [fmt.Errorf(text)], no verb in [text] *)
Definition Errorf (text : string) : error := errorString text.

(** [fmt.Errorf(prefix + "%w", err)]: the message is the prefix followed by
    the message of the cause, and the cause stays reachable by [Unwrap]. *)
Definition Errorf_w (prefix : string) (err : error) : error :=
  wrapError (prefix +:+ Error err) err.

(** A Go function returning [(A, error)]. *)
Inductive result (A : Type) : Type :=
| Ok (a : A)
| Err (e : error).
Arguments Ok {A} a.
Arguments Err {A} e.

(** A [*string]: [None] is the nil pointer. *)
Definition nilOrEmpty (p : option string) : bool :=
  match p with
  | None => true
  | Some s => String.eqb s ""
  end.

(** [*p]; every use below is guarded by [negb (nilOrEmpty p)]. *)
Definition deref (p : option string) : string :=
  match p with
  | Some s => s
  | None => ""
  end.

(** ** External collaborators *)

(** The part of [afero.Fs] that the command uses.  [ReadFile] observes the
    store; [WriteFile] returns the store it leaves behind together with its
    error, so a failing write is free to have changed the store. *)
Class Fs : Type := {
  FS : Type;
  ReadFile : FS → string → result bytes;
  WriteFile : FS → string → bytes → N → FS * option error
}.

(** What [sign] uses of [github.com/veraison/corim/corim] and [go-cose].
    [Entropy] stands for the process-wide random source that a COSE signer
    may draw from. *)
Class CorimLib : Type := {
  UnsignedCorim : Type;
  Meta : Type;
  Signer : Type;
  SignedCorim : Type;
  Entropy : Type;
  (** [c.FromCBOR(data)] on a zero [c] *)
  UnsignedCorim_FromCBOR : bytes → result UnsignedCorim;
  (** [c.Valid()] *)
  UnsignedCorim_Valid : UnsignedCorim → option error;
  (** [m.FromJSON(data)] on a zero [m] *)
  Meta_FromJSON : bytes → result Meta;
  (** [m.Valid()] *)
  Meta_Valid : Meta → option error;
  NewSignerFromJWK : bytes → result Signer;
  (** [corim.SignedCorim{UnsignedCorim: c, Meta: m}] *)
  SignedCorim_lit : UnsignedCorim → Meta → SignedCorim;
  (** [s.AddSigningCert(der)], [s] updated in place *)
  AddSigningCert : SignedCorim → bytes → result SignedCorim;
  (** [s.AddIntermediateCerts(der)], [s] updated in place *)
  AddIntermediateCerts : SignedCorim → bytes → result SignedCorim;
  (** [s.Sign(signer)] *)
  Sign : SignedCorim → Signer → Entropy → result bytes * Entropy
}.

(** A signer is deterministic when its output ignores the random source. *)
Definition deterministic_signer `{CorimLib} : Prop :=
  ∀ s k r1 r2, (Sign s k r1).1 = (Sign s k r2).1.

Section Command.
Context `{fsI : Fs} `{lib : CorimLib}.

(** ** Traces *)

(** One event per step of the command, with the arguments of the call. *)
Inductive Event : Type :=
| EvReadFile (name : string)
| EvFromCBOR (data : bytes)
| EvCorimValid (c : UnsignedCorim)
| EvFromJSON (data : bytes)
| EvMetaValid (m : Meta)
| EvNewSignerFromJWK (data : bytes)
| EvSignedCorim (s : SignedCorim)
| EvAddSigningCert (s : SignedCorim) (der : bytes)
| EvAddIntermediateCerts (s : SignedCorim) (der : bytes)
| EvSign (s : SignedCorim) (signer : Signer)
| EvWriteFile (name : string) (data : bytes)
| EvPrintf (corimFile coseFile : string).

(** What a run can change: the files and the random source. *)
Record State : Type := mkState {
  st_fs : FS;
  st_rand : Entropy
}.

(** ** The command monad: state, trace and error *)

Definition M (A : Type) : Type := State → State * list Event * result A.

Definition ret {A} (a : A) : M A := λ st, (st, [], Ok a).

Definition fail {A} (e : error) : M A := λ st, (st, [], Err e).

Definition bind {A B} (m : M A) (f : A → M B) : M B :=
  λ st,
    match m st with
    | (st1, t1, Err e) => (st1, t1, Err e)
    | (st1, t1, Ok a) =>
        match f a st1 with
        | (st2, t2, r) => (st2, t1 ++ t2, r)
        end
    end.

(** [if x, err = call; err != nil { return "", wrap(err) }] *)
Definition try {A} (m : M A) (wrap : error → error) : M A :=
  λ st,
    match m st with
    | (st1, t1, Err e) => (st1, t1, Err (wrap e))
    | (st1, t1, Ok a) => (st1, t1, Ok a)
    end.

Notation "x <- m ;; k" := (bind m (λ x, k))
  (at level 100, m at next level, right associativity).

(** A call to a function of the library that touches no state. *)
Definition call {A} (ev : Event) (r : result A) : M A := λ st, (st, [ev], r).

(** A call that returns only an [error]. *)
Definition check (ev : Event) (r : option error) : M unit :=
  λ st, (st, [ev], match r with Some e => Err e | None => Ok tt end).

Definition readFile (name : string) : M bytes :=
  λ st, (st, [EvReadFile name], ReadFile (st_fs st) name).

Definition writeFile (name : string) (data : bytes) (perm : N) : M unit :=
  λ st,
    match WriteFile (st_fs st) name data perm with
    | (fs', r) =>
        (mkState fs' (st_rand st), [EvWriteFile name data],
         match r with Some e => Err e | None => Ok tt end)
    end.

Definition signWith (s : SignedCorim) (signer : Signer) : M bytes :=
  λ st,
    match Sign s signer (st_rand st) with
    | (r, rand') => (mkState (st_fs st) rand', [EvSign s signer], r)
    end.

Definition printf (corimFile coseFile : string) : M unit :=
  λ st, (st, [EvPrintf corimFile coseFile], Ok tt).

(** ** [sign] *)

Definition sign (unsignedCorimFile keyFile metaFile : string)
    (outputFile certFile intermediatesFile : option string) : M string :=
  unsignedCorimCBOR <-
    try (readFile unsignedCorimFile)
        (Errorf_w ("error loading unsigned CoRIM from " +:+ unsignedCorimFile +:+ ": ")) ;;
  c <-
    try (call (EvFromCBOR unsignedCorimCBOR) (UnsignedCorim_FromCBOR unsignedCorimCBOR))
        (Errorf_w ("error decoding unsigned CoRIM from " +:+ unsignedCorimFile +:+ ": ")) ;;
  _ <-
    try (check (EvCorimValid c) (UnsignedCorim_Valid c))
        (Errorf_w "error validating CoRIM: ") ;;
  metaJSON <-
    try (readFile metaFile)
        (Errorf_w ("error loading CoRIM Meta from " +:+ metaFile +:+ ": ")) ;;
  m <-
    try (call (EvFromJSON metaJSON) (Meta_FromJSON metaJSON))
        (Errorf_w ("error decoding CoRIM Meta from " +:+ metaFile +:+ ": ")) ;;
  _ <-
    try (check (EvMetaValid m) (Meta_Valid m))
        (Errorf_w "error validating CoRIM Meta: ") ;;
  keyJWK <-
    try (readFile keyFile)
        (Errorf_w ("error loading signing key from " +:+ keyFile +:+ ": ")) ;;
  signer <-
    try (call (EvNewSignerFromJWK keyJWK) (NewSignerFromJWK keyJWK))
        (Errorf_w ("error loading signing key from " +:+ keyFile +:+ ": ")) ;;
  s <- call (EvSignedCorim (SignedCorim_lit c m)) (Ok (SignedCorim_lit c m)) ;;
  s <-
    (if negb (nilOrEmpty certFile) then
       certDER <-
         try (readFile (deref certFile))
             (Errorf_w ("error loading signing certificate from " +:+ deref certFile +:+ ": ")) ;;
       try (call (EvAddSigningCert s certDER) (AddSigningCert s certDER))
           (Errorf_w "error adding signing certificate: ")
     else ret s) ;;
  s <-
    (if negb (nilOrEmpty intermediatesFile) then
       _ <-
         (if nilOrEmpty certFile then
            fail (Errorf "cannot add intermediate certificates without a signing certificate")
          else ret tt) ;;
       intermediatesDER <-
         try (readFile (deref intermediatesFile))
             (Errorf_w ("error loading intermediate certificates from "
                        +:+ deref intermediatesFile +:+ ": ")) ;;
       try (call (EvAddIntermediateCerts s intermediatesDER)
                 (AddIntermediateCerts s intermediatesDER))
           (Errorf_w "error adding intermediate certificates: ")
     else ret s) ;;
  signedCorimCBOR <-
    try (signWith s signer) (Errorf_w "error signing CoRIM: ") ;;
  let signedCorimFile :=
    if nilOrEmpty outputFile then "signed-" +:+ unsignedCorimFile
    else deref outputFile in
  _ <-
    try (writeFile signedCorimFile signedCorimCBOR 420%N)
        (Errorf_w ("error saving signed CoRIM to file " +:+ signedCorimFile +:+ ": ")) ;;
  ret signedCorimFile.

(** ** The flags and the command's entry point *)

(** The package-level flag variables, each a [*string]. *)
Record Flags : Type := mkFlags {
  corimSignCorimFile : option string;
  corimSignKeyFile : option string;
  corimSignOutputFile : option string;
  corimSignMetaFile : option string;
  corimSignCertFile : option string;
  corimSignIntermediateCerts : option string
}.

Definition checkCorimSignArgs (flags : Flags) : option error :=
  if nilOrEmpty (corimSignCorimFile flags) then
    Some (errors_New "no CoRIM supplied")
  else if nilOrEmpty (corimSignKeyFile flags) then
    Some (errors_New "no key supplied")
  else if nilOrEmpty (corimSignMetaFile flags) then
    Some (errors_New "no CoRIM Meta supplied")
  else None.

(** The [RunE] closure of [NewCorimSignCmd]. *)
Definition RunE (flags : Flags) : M unit :=
  match checkCorimSignArgs flags with
  | Some err => fail err
  | None =>
      coseFile <-
        sign (deref (corimSignCorimFile flags)) (deref (corimSignKeyFile flags))
             (deref (corimSignMetaFile flags)) (corimSignOutputFile flags)
             (corimSignCertFile flags) (corimSignIntermediateCerts flags) ;;
      printf (deref (corimSignCorimFile flags)) coseFile
  end.

(** ** Vocabulary of the statements *)

(** A path flag that was not given: nil, or the empty default. *)
Definition missing (p : option string) : Prop := p = None ∨ p = Some "".

(** A path flag that was given. *)
Definition supplied (p : option string) : Prop := ∃ s, p = Some s ∧ s ≠ "".

(** The name [sign] saves the envelope under. *)
Definition destination (unsignedCorimFile : string) (outputFile : option string)
    (name : string) : Prop :=
  (missing outputFile → name = "signed-" +:+ unsignedCorimFile) ∧
  (∀ o, outputFile = Some o → o ≠ "" → name = o).

(** The events at which a file is written. *)
Definition is_write (ev : Event) : bool :=
  match ev with
  | EvWriteFile _ _ => true
  | _ => false
  end.

(** The events at which the signing key or the signer is touched. *)
Definition is_signer_step (ev : Event) : bool :=
  match ev with
  | EvNewSignerFromJWK _ | EvSign _ _ => true
  | _ => false
  end.

(** The events at which an envelope is produced or saved. *)
Definition is_envelope_step (ev : Event) : bool :=
  match ev with
  | EvSign _ _ | EvWriteFile _ _ => true
  | _ => false
  end.

(** The names of the files a trace reads, in order. *)
Fixpoint reads (t : list Event) : list string :=
  match t with
  | [] => []
  | EvReadFile name :: t' => name :: reads t'
  | _ :: t' => reads t'
  end.

(** The manifest, the metadata and the key all load, decode and validate:
    the steps of [sign] that come before any certificate handling. *)
Definition front_ok (fs : FS) (unsignedCorimFile keyFile metaFile : string) : Prop :=
  ∃ cbor c json m jwk signer,
    ReadFile fs unsignedCorimFile = Ok cbor ∧
    UnsignedCorim_FromCBOR cbor = Ok c ∧
    UnsignedCorim_Valid c = None ∧
    ReadFile fs metaFile = Ok json ∧
    Meta_FromJSON json = Ok m ∧
    Meta_Valid m = None ∧
    ReadFile fs keyFile = Ok jwk ∧
    NewSignerFromJWK jwk = Ok signer.

(** The events at which [Sign] is called. *)
Definition is_sign (ev : Event) : bool :=
  match ev with
  | EvSign _ _ => true
  | _ => false
  end.

(** The events at which the confirmation is printed. *)
Definition is_printf (ev : Event) : bool :=
  match ev with
  | EvPrintf _ _ => true
  | _ => false
  end.

(** The error, if any, that the call recorded by an event returns when it is
    made in a given state. *)
Definition call_error (st : State) (ev : Event) : option error :=
  match ev with
  | EvReadFile name =>
      match ReadFile (st_fs st) name with Err e => Some e | Ok _ => None end
  | EvFromCBOR data =>
      match UnsignedCorim_FromCBOR data with Err e => Some e | Ok _ => None end
  | EvCorimValid c => UnsignedCorim_Valid c
  | EvFromJSON data =>
      match Meta_FromJSON data with Err e => Some e | Ok _ => None end
  | EvMetaValid m => Meta_Valid m
  | EvNewSignerFromJWK data =>
      match NewSignerFromJWK data with Err e => Some e | Ok _ => None end
  | EvSignedCorim _ => None
  | EvAddSigningCert s der =>
      match AddSigningCert s der with Err e => Some e | Ok _ => None end
  | EvAddIntermediateCerts s der =>
      match AddIntermediateCerts s der with Err e => Some e | Ok _ => None end
  | EvSign s signer =>
      match (Sign s signer (st_rand st)).1 with Err e => Some e | Ok _ => None end
  | EvWriteFile name data => (WriteFile (st_fs st) name data 420%N).2
  | EvPrintf _ _ => None
  end.

(** Everything [sign] does before it signs has succeeded on the files of
    [fs]: the manifest and the metadata load, decode and validate, the key
    loads and gives [signer], and [s] is the [SignedCorim] of the two with
    the contents of the certificate file and of the intermediates file
    attached, for the paths that were given (intermediates only along with a
    certificate). *)
Definition prepared (fs : FS) (unsignedCorimFile keyFile metaFile : string)
    (certFile intermediatesFile : option string)
    (s : SignedCorim) (signer : Signer) : Prop :=
  ∃ cbor c json m jwk s1,
    ReadFile fs unsignedCorimFile = Ok cbor ∧
    UnsignedCorim_FromCBOR cbor = Ok c ∧
    UnsignedCorim_Valid c = None ∧
    ReadFile fs metaFile = Ok json ∧
    Meta_FromJSON json = Ok m ∧
    Meta_Valid m = None ∧
    ReadFile fs keyFile = Ok jwk ∧
    NewSignerFromJWK jwk = Ok signer ∧
    (if nilOrEmpty certFile then s1 = SignedCorim_lit c m
     else ∃ der,
       ReadFile fs (deref certFile) = Ok der ∧
       AddSigningCert (SignedCorim_lit c m) der = Ok s1) ∧
    (if nilOrEmpty intermediatesFile then s = s1
     else nilOrEmpty certFile = false ∧
       ∃ der,
         ReadFile fs (deref intermediatesFile) = Ok der ∧
         AddIntermediateCerts s1 der = Ok s).

(** What the message of a failure says, by the call that failed and the call
    made just before it: the text of the stage and, for the stages that work
    on a file, the name of that file.  A read or a write works on the file it
    names, a decoding or a key parsing on the file read just before it; which
    file a read is for shows in the step it follows. *)
Definition failure_context (prev : option Event) (ev : Event)
    : option (string * option string) :=
  match ev with
  | EvReadFile name =>
      match prev with
      | None => Some ("error loading unsigned CoRIM from ", Some name)
      | Some (EvCorimValid _) => Some ("error loading CoRIM Meta from ", Some name)
      | Some (EvMetaValid _) => Some ("error loading signing key from ", Some name)
      | Some (EvSignedCorim _) =>
          Some ("error loading signing certificate from ", Some name)
      | Some (EvAddSigningCert _ _) =>
          Some ("error loading intermediate certificates from ", Some name)
      | _ => None
      end
  | EvFromCBOR _ =>
      match prev with
      | Some (EvReadFile name) => Some ("error decoding unsigned CoRIM from ", Some name)
      | _ => None
      end
  | EvCorimValid _ => Some ("error validating CoRIM: ", None)
  | EvFromJSON _ =>
      match prev with
      | Some (EvReadFile name) => Some ("error decoding CoRIM Meta from ", Some name)
      | _ => None
      end
  | EvMetaValid _ => Some ("error validating CoRIM Meta: ", None)
  | EvNewSignerFromJWK _ =>
      match prev with
      | Some (EvReadFile name) => Some ("error loading signing key from ", Some name)
      | _ => None
      end
  | EvSignedCorim _ => None
  | EvAddSigningCert _ _ => Some ("error adding signing certificate: ", None)
  | EvAddIntermediateCerts _ _ => Some ("error adding intermediate certificates: ", None)
  | EvSign _ _ => Some ("error signing CoRIM: ", None)
  | EvWriteFile name _ => Some ("error saving signed CoRIM to file ", Some name)
  | EvPrintf _ _ => None
  end.

(** The message for a stage text, the file it names if any, and a cause. *)
Definition message_of (text : string) (path : option string) (cause : error)
    : string :=
  match path with
  | Some p => text +:+ p +:+ ": " +:+ Error cause
  | None => text +:+ Error cause
  end.

(** Two values of a path flag that [sign] cannot tell apart. *)
Definition same_path (p q : option string) : Prop :=
  p = q ∨ (missing p ∧ missing q).

End Command.

(** [strings.Contains(s, substr)]: used to say that a message names a path. *)
Fixpoint contains (s substr : string) : bool :=
  String.prefix substr s ||
  match s with
  | EmptyString => false
  | String _ s' => contains s' substr
  end.

(** The files whose contents [sign] depends on. *)
Definition input_files (unsignedCorimFile keyFile metaFile : string)
    (certFile intermediatesFile : option string) : list string :=
  [unsignedCorimFile; metaFile; keyFile]
  ++ (if nilOrEmpty certFile then [] else [deref certFile])
  ++ (if nilOrEmpty intermediatesFile then [] else [deref intermediatesFile]).

(** ** Filesystems *)

(** An in-memory store in the manner of [afero.NewMemMapFs()], flat: a map
    from names to contents, the names compared as they are given (no path is
    cleaned or resolved, so it stands for the real filesystem on plain,
    distinct file names only).  Reading a missing name fails, writing creates
    or replaces and cannot fail. *)
Definition MemMapFs : Fs := {|
  FS := gmap string bytes;
  ReadFile fs name :=
    match fs !! name with
    | Some data => Ok data
    | None => Err (errorString ("open " +:+ name +:+ ": file does not exist"))
    end;
  WriteFile fs name data _ := (<[name := data]> fs, None)
|}.

(** The same store behind [afero.NewReadOnlyFs]: every write is refused. *)
Definition ReadOnlyFs : Fs := {|
  FS := gmap string bytes;
  ReadFile fs name :=
    match fs !! name with
    | Some data => Ok data
    | None => Err (errorString ("open " +:+ name +:+ ": file does not exist"))
    end;
  WriteFile fs name data _ := (fs, Some (errorString "operation not permitted"))
|}.

(** A file written without error reads back as written. *)
Class FsReadBack (F : Fs) : Prop :=
  write_read : ∀ (fs fs' : FS) name data perm,
    WriteFile fs name data perm = (fs', None) →
    ReadFile fs' name = Ok data.

(** ** A stand-in for the CoRIM library

    Small enough to run: documents are their bytes, a document that starts
    with ['!'] decodes but is not valid, empty input does not decode, and the
    envelope is the concatenation of what was assembled. *)
Module Stub.

Definition marked (data : bytes) : bool :=
  match data with
  | x21 :: _ => true
  | _ => false
  end.

Definition decode (what : string) (data : bytes) : result bytes :=
  match data with
  | [] => Err (errorString ("unexpected end of " +:+ what))
  | _ => Ok data
  end.

Definition valid (what : string) (data : bytes) : option error :=
  if marked data then Some (errorString ("invalid " +:+ what)) else None.

Record signed : Type := mkSigned {
  payload : bytes;
  meta : bytes;
  certs : list bytes
}.

Definition addCert (s : signed) (der : bytes) : result signed :=
  match der with
  | [] => Err (errorString "malformed certificate")
  | _ => Ok (mkSigned (payload s) (meta s) (certs s ++ [der]))
  end.

Definition envelope (s : signed) (key : bytes) : bytes :=
  payload s ++ meta s ++ concat (certs s) ++ key.

(** Signs without looking at the random source. *)
Definition lib : CorimLib := {|
  UnsignedCorim := bytes;
  Meta := bytes;
  Signer := bytes;
  SignedCorim := signed;
  Entropy := N;
  UnsignedCorim_FromCBOR := decode "CBOR";
  UnsignedCorim_Valid := valid "CoRIM";
  Meta_FromJSON := decode "JSON";
  Meta_Valid := valid "Meta";
  NewSignerFromJWK := decode "JWK";
  SignedCorim_lit c m := mkSigned c m [];
  AddSigningCert := addCert;
  AddIntermediateCerts := addCert;
  Sign s key rand := (Ok (envelope s key), rand)
|}.

(** Signs with a nonce drawn from the random source, which it advances. *)
Definition nonce (rand : N) : bytes :=
  match Byte.of_N (rand mod 256) with
  | Some x => [x]
  | None => []
  end.

Definition lib_rand : CorimLib := {|
  UnsignedCorim := bytes;
  Meta := bytes;
  Signer := bytes;
  SignedCorim := signed;
  Entropy := N;
  UnsignedCorim_FromCBOR := decode "CBOR";
  UnsignedCorim_Valid := valid "CoRIM";
  Meta_FromJSON := decode "JSON";
  Meta_Valid := valid "Meta";
  NewSignerFromJWK := decode "JWK";
  SignedCorim_lit c m := mkSigned c m [];
  AddSigningCert := addCert;
  AddIntermediateCerts := addCert;
  Sign s key rand := (Ok (envelope s key ++ nonce rand), (rand + 1)%N)
|}.

(** Contents of the files used in the examples. *)
Definition b (s : string) : bytes := String.list_byte_of_string s.

Definition files : gmap string bytes :=
  <["corim.cbor" := b "CORIM"]>
  (<["meta.json" := b "META"]>
  (<["key.jwk" := b "KEY"]>
  (<["cert.der" := b "LEAF"]>
  (<["chain.der" := b "CHAIN"]>
  (<["bad.cbor" := b "!CORIM"]>
  (<["bad.json" := b "!META"]> ∅)))))).

(** [sign] on the in-memory filesystem, and states to start it from. *)
Definition run := @sign MemMapFs lib.

Definition start : @State MemMapFs lib := @mkState MemMapFs lib files 7%N.

(** Same input files, one more file, another random source. *)
Definition other : @State MemMapFs lib :=
  @mkState MemMapFs lib (<["notes.txt" := b "unrelated"]> files) 99%N.

(** The same files where nothing can be written. *)
Definition start_ro : @State ReadOnlyFs lib := @mkState ReadOnlyFs lib files 7%N.

End Stub.

(** * Properties of the command *)

Section Properties.
Context `{fsI : Fs} `{lib : CorimLib}.

Implicit Types (st : State) (t : list Event) (r : result string).

(** Runs [sign] symbolically: one case per outcome of each call. *)
Ltac split_on x :=
  lazymatch x with
  | context [match ?y with _ => _ end] => split_on y
  | _ => destruct x eqn:?
  end.

Ltac run_sign_in H :=
  unfold sign, bind, try, call, check, readFile, writeFile, signWith, ret, fail in H;
  cbn beta iota in H;
  repeat (lazymatch type of H with
          | context [match ?x with _ => _ end] => split_on x
          end; cbn beta iota in H);
  simplify_eq/=.

Lemma nilOrEmpty_true p : nilOrEmpty p = true ↔ missing p.
Proof.
  unfold missing. destruct p as [s|]; simpl.
  - rewrite String.eqb_eq. split; [intros ->; by right | by intros [|[=]]].
  - split; [by left | done].
Qed.

Lemma nilOrEmpty_false p : nilOrEmpty p = false ↔ supplied p.
Proof.
  unfold supplied. destruct p as [s|]; simpl.
  - rewrite String.eqb_neq. split; [by exists s | by intros (? & [= <-] & ?)].
  - split; [done | by intros (? & ? & ?)].
Qed.

Lemma missing_not_supplied p : missing p → supplied p → False.
Proof. intros [-> | ->] (s & [= <-] & Hs); done. Qed.

Lemma destination_intro unsignedCorimFile outputFile :
  destination unsignedCorimFile outputFile
    (if nilOrEmpty outputFile then "signed-" +:+ unsignedCorimFile
     else deref outputFile).
Proof.
  split.
  - intros Hm. apply nilOrEmpty_true in Hm. by rewrite Hm.
  - intros o -> Ho. simpl. by apply String.eqb_neq in Ho as ->.
Qed.

(** C1. A manifest that fails [Valid] never reaches the signer: [sign] stops
    after the read, the decoding and the failed validation, with the
    validation error and the state untouched; and in any run, every step
    past the third (loading the metadata and the key, building the signer,
    signing, saving) happens only after [Valid] has accepted the decoded
    manifest. *)
Theorem sign_validates_before_signer
    (unsignedCorimFile keyFile metaFile : string)
    (outputFile certFile intermediatesFile : option string) st st' t r :
  sign unsignedCorimFile keyFile metaFile outputFile certFile intermediatesFile st
    = (st', t, r) →
  (∀ cbor c verr,
     ReadFile (st_fs st) unsignedCorimFile = Ok cbor →
     UnsignedCorim_FromCBOR cbor = Ok c →
     UnsignedCorim_Valid c = Some verr →
     st' = st ∧
     t = [EvReadFile unsignedCorimFile; EvFromCBOR cbor; EvCorimValid c] ∧
     r = Err (Errorf_w "error validating CoRIM: " verr)) ∧
  (∀ i ev,
     t !! i = Some ev → (3 ≤ i ∨ is_signer_step ev = true) →
     ∃ cbor c,
       ReadFile (st_fs st) unsignedCorimFile = Ok cbor ∧
       UnsignedCorim_FromCBOR cbor = Ok c ∧
       UnsignedCorim_Valid c = None ∧
       take 3 t = [EvReadFile unsignedCorimFile; EvFromCBOR cbor; EvCorimValid c]).
Proof.
  intros Hrun. split.
  - intros cbor c verr Hread Hdec Hval. revert Hrun.
    unfold sign, bind, try, call, check, readFile.
    rewrite Hread, Hdec, Hval. by intros [= <- <- <-].
  - intros i ev Hi Hpos. run_sign_in Hrun;
      try (by eauto 10);
      exfalso; destruct Hpos as [Hpos | Hpos];
      repeat (destruct i as [|i]; simplify_eq/=; try lia).
Qed.
(** C7. A successful run performs, in this order and with nothing else in
    between: read the manifest, decode it, validate it, read the metadata,
    decode it, validate it, read the key, build the signer, build the
    [SignedCorim]; then, only if a certificate path was given, read and
    attach the signing certificate; then, only if an intermediates path was
    given, read and attach the intermediates; then sign; then write the
    envelope to the returned path. *)
Theorem sign_step_order
    (unsignedCorimFile keyFile metaFile : string)
    (outputFile certFile intermediatesFile : option string) st st' t path :
  sign unsignedCorimFile keyFile metaFile outputFile certFile intermediatesFile st
    = (st', t, Ok path) →
  ∃ cbor c json m jwk signer certDER s1 intermediatesDER s2 envelope,
    t = [EvReadFile unsignedCorimFile; EvFromCBOR cbor; EvCorimValid c;
         EvReadFile metaFile; EvFromJSON json; EvMetaValid m;
         EvReadFile keyFile; EvNewSignerFromJWK jwk;
         EvSignedCorim (SignedCorim_lit c m)]
        ++ (if nilOrEmpty certFile then []
            else [EvReadFile (deref certFile);
                  EvAddSigningCert (SignedCorim_lit c m) certDER])
        ++ (if nilOrEmpty intermediatesFile then []
            else [EvReadFile (deref intermediatesFile);
                  EvAddIntermediateCerts s1 intermediatesDER])
        ++ [EvSign s2 signer; EvWriteFile path envelope] ∧
    UnsignedCorim_Valid c = None ∧
    Meta_Valid m = None ∧
    (if nilOrEmpty certFile then s1 = SignedCorim_lit c m
     else AddSigningCert (SignedCorim_lit c m) certDER = Ok s1) ∧
    (if nilOrEmpty intermediatesFile then s2 = s1
     else AddIntermediateCerts s1 intermediatesDER = Ok s2).
Proof.
  intros Hrun. run_sign_in Hrun.
  all: repeat match goal with
         | H : negb ?b = _ |- _ => destruct b eqn:?; simplify_eq/=
         end.
  all: try (eexists _, _, _, _, _, _, _, _, _, _, _; simpl;
            split_and!; [reflexivity | done ..]).
  (* the bytes of a certificate file that was not read are of no matter *)
  Unshelve. all: exact [].
Qed.

(** Splits a trace of known length in front of its last events. *)
Ltac split_trace :=
  lazymatch goal with
  | |- ?l = ?t0 ++ ?tl =>
      unify t0 (take (length l - length tl) l); reflexivity
  end.

(** Closes [Forall] goals over a trace given in full, reading the outcome of
    each call off the hypotheses of the case at hand. *)
Ltac calls_ok :=
  simpl;
  repeat (lazymatch goal with |- Forall _ (_ :: _) => constructor end;
          [ simpl;
            repeat match goal with
                   | H : ?x = _ |- context [?x] => rewrite H
                   end;
            done | ]);
  lazymatch goal with |- Forall _ [] => constructor end.

(** Brings the outcomes recorded for one call together. *)
Ltac agree :=
  repeat match goal with
         | H1 : ?x = _, H2 : ?x = _ |- _ => rewrite H1 in H2; simplify_eq/=
         end.


(** C4. When everything before the write has succeeded and [Sign] has
    returned an envelope, [sign] writes that envelope, as its last step,
    under ["signed-"] followed by the manifest's name when no output path was
    given (nil or empty) and under the output path itself otherwise, and when
    that write reports no error it returns the name it wrote under.  In any
    run, a write is under that name and no other, and a path returned is the
    name of the last step, a [WriteFile] that reported no error. *)
Theorem sign_output_path
    (unsignedCorimFile keyFile metaFile : string)
    (outputFile certFile intermediatesFile : option string) st st' t r :
  sign unsignedCorimFile keyFile metaFile outputFile certFile intermediatesFile st
    = (st', t, r) →
  (∀ s signer envelope rand',
     prepared (st_fs st) unsignedCorimFile keyFile metaFile
       certFile intermediatesFile s signer →
     Sign s signer (st_rand st) = (Ok envelope, rand') →
     ∃ name t0,
       destination unsignedCorimFile outputFile name ∧
       t = t0 ++ [EvSign s signer; EvWriteFile name envelope] ∧
       st_fs st' = (WriteFile (st_fs st) name envelope 420%N).1 ∧
       r = match (WriteFile (st_fs st) name envelope 420%N).2 with
           | None => Ok name
           | Some werr =>
               Err (Errorf_w ("error saving signed CoRIM to file " +:+ name +:+ ": ")
                      werr)
           end) ∧
  (∀ name data,
     In (EvWriteFile name data) t → destination unsignedCorimFile outputFile name) ∧
  (∀ path,
     r = Ok path →
     destination unsignedCorimFile outputFile path ∧
     ∃ t0 data,
       t = t0 ++ [EvWriteFile path data] ∧
       WriteFile (st_fs st) path data 420%N = (st_fs st', None)).
Proof.
  intros Hrun.
  pose proof (destination_intro unsignedCorimFile outputFile) as Hdest.
  unfold sign, prepared in *.
  destruct (nilOrEmpty certFile) eqn:Hc, (nilOrEmpty intermediatesFile) eqn:Hi;
    run_sign_in Hrun.
  all: split_and!;
    [ intros s signer envelope rand'
        (cbor & c & json & m & jwk & s1 & H1 & H2 & H3 & H4 & H5 & H6 & H7 & H8
         & H9 & H10) Hsign;
      repeat match goal with
             | H : ∃ _, _ |- _ => destruct H as (? & ? & ?)
             | H : _ ∧ _ |- _ => destruct H as [? ?]
             end;
      simplify_eq/=; agree; try done;
      (eexists _, _; split_and!;
         [ exact Hdest | split_trace
         | repeat match goal with
                  | H : WriteFile _ _ _ _ = _ |- _ => rewrite H
                  end; done .. ])
    | intros name data Hin; simpl in Hin;
      repeat (destruct Hin as [Hin | Hin]; simplify_eq/=); done
    | intros path [= <-];
      (split; [done|]; eexists _, _; split; [split_trace | done]) ].
Qed.

(** C5. When the manifest path, the key path or the metadata path is missing
    (nil or empty), the command fails with the message of the first one that
    is missing, in the order manifest, key, metadata; it has then made no
    call at all (no file read, nothing signed or written) and the state is
    the one it started from. *)
Theorem RunE_requires_paths (flags : Flags) st :
  missing (corimSignCorimFile flags) ∨
  missing (corimSignKeyFile flags) ∨
  missing (corimSignMetaFile flags) →
  ∃ e,
    RunE flags st = (st, [], Err e) ∧
    (e = errors_New "no CoRIM supplied" ∧ missing (corimSignCorimFile flags) ∨
     e = errors_New "no key supplied" ∧ missing (corimSignKeyFile flags) ∧
       supplied (corimSignCorimFile flags) ∨
     e = errors_New "no CoRIM Meta supplied" ∧ missing (corimSignMetaFile flags) ∧
       supplied (corimSignCorimFile flags) ∧ supplied (corimSignKeyFile flags)).
Proof.
  intros Hmiss. unfold RunE, checkCorimSignArgs.
  destruct (nilOrEmpty (corimSignCorimFile flags)) eqn:Hc.
  { apply nilOrEmpty_true in Hc. eexists; split; [done|]. by left. }
  apply nilOrEmpty_false in Hc.
  destruct (nilOrEmpty (corimSignKeyFile flags)) eqn:Hk.
  { apply nilOrEmpty_true in Hk. eexists; split; [done|]. right; by left. }
  apply nilOrEmpty_false in Hk.
  destruct (nilOrEmpty (corimSignMetaFile flags)) eqn:Hm.
  { apply nilOrEmpty_true in Hm. eexists; split; [done|]. right; by right. }
  apply nilOrEmpty_false in Hm.
  destruct Hmiss as [H | [H | H]]; exfalso; eauto using missing_not_supplied.
Qed.

Lemma append_assoc (s1 s2 s3 : string) :
  (s1 +:+ s2) +:+ s3 = s1 +:+ s2 +:+ s3.
Proof.
  induction s1 as [|a s1 IH]; [done|].
  change (String a (s1 +:+ s2) +:+ s3 = String a (s1 +:+ s2 +:+ s3)).
  change (String a ((s1 +:+ s2) +:+ s3) = String a (s1 +:+ s2 +:+ s3)).
  by rewrite IH.
Qed.

Lemma prefix_app (s rest : string) : String.prefix s (s +:+ rest) = true.
Proof.
  induction s as [|a s IH].
  - by destruct rest.
  - change (String a s +:+ rest) with (String a (s +:+ rest)).
    cbn [String.prefix]. by destruct (Ascii.ascii_dec a a).
Qed.

Lemma contains_app (before s rest : string) :
  contains (before +:+ s +:+ rest) s = true.
Proof.
  induction before as [|a before IH].
  - change ("" +:+ s +:+ rest) with (s +:+ rest).
    pose proof (prefix_app s rest) as Hp.
    destruct (s +:+ rest); cbn [contains]; by rewrite Hp.
  - change (String a before +:+ s +:+ rest)
      with (String a (before +:+ s +:+ rest)).
    cbn [contains]. rewrite IH. apply orb_true_r.
Qed.

Lemma Errorf_w_names_path (stage path : string) (cause : error) :
  contains (Error (Errorf_w (stage +:+ path +:+ ": ") cause)) path = true.
Proof.
  cbn [Error Errorf_w]. rewrite !append_assoc. apply contains_app.
Qed.

(** Picks an element of a list given in full; leaves a choice point at
    every position. *)
Ltac pick_in := simpl; ((left; reflexivity) + (right; pick_in)).

(** The failure of a run, by the call that failed: the trace ends with a call
    that returned an error, and the error of [sign] wraps that error under
    the text of the stage which [failure_context] gives for that call,
    followed by the name of the file it works on when it has one. *)
Lemma sign_failure_stage
    (unsignedCorimFile keyFile metaFile : string)
    (outputFile certFile intermediatesFile : option string) st st' t e :
  sign unsignedCorimFile keyFile metaFile outputFile certFile intermediatesFile st
    = (st', t, Err e) →
  (∃ t0 ev cause text path,
     t = t0 ++ [ev] ∧
     Forall (λ ev, call_error st ev = None) t0 ∧
     call_error st ev = Some cause ∧
     failure_context (last t0) ev = Some (text, path) ∧
     e = Errorf_w (match path with
                   | Some p => text +:+ p +:+ ": "
                   | None => text
                   end) cause ∧
     (∀ p, path = Some p →
        In p (input_files unsignedCorimFile keyFile metaFile
                certFile intermediatesFile) ∨
        destination unsignedCorimFile outputFile p)) ∨
  (e = Errorf "cannot add intermediate certificates without a signing certificate" ∧
   Forall (λ ev, call_error st ev = None) t ∧
   missing certFile ∧ supplied intermediatesFile).
Proof.
  intros Hrun.
  pose proof (destination_intro unsignedCorimFile outputFile) as Hdest.
  unfold sign, input_files in *.
  destruct (nilOrEmpty certFile) eqn:Hc, (nilOrEmpty intermediatesFile) eqn:Hi;
    run_sign_in Hrun.
  all: try (right; split_and!;
            [ reflexivity | calls_ok
            | by apply nilOrEmpty_true | by apply nilOrEmpty_false ]).
  all: left; eexists _, _, _, _, _;
    split_and!;
    [ split_trace | calls_ok
    | simpl;
      repeat match goal with
             | H : ?x = _ |- context [?x] => rewrite H
             end; done
    | simpl; reflexivity
    | reflexivity
    | intros p [= <-]; first [by right | left; simpl; tauto] ].
Qed.

(** C6, as the code has it.  An error of [sign] comes from the call at the
    end of the trace, the first one that failed, and wraps the error of that
    call; its message is the text of the stage of that call, followed by the
    cause, with the name of the file between the two for the stages that
    work on a file.  Those are: reading the manifest, the metadata, the key,
    the certificate or the intermediates (the message names the file read),
    decoding the manifest or the metadata and parsing the key (it names the
    file the bytes were read from) and writing the output (it names the file
    written); the file named is an input file or the destination.  The
    messages for validating the manifest or the metadata, attaching
    certificates and signing name no file, and the guard on intermediates is
    a fixed message without a cause. *)
Theorem sign_error_context
    (unsignedCorimFile keyFile metaFile : string)
    (outputFile certFile intermediatesFile : option string) st st' t e :
  sign unsignedCorimFile keyFile metaFile outputFile certFile intermediatesFile st
    = (st', t, Err e) →
  (∃ t0 ev cause text path,
     t = t0 ++ [ev] ∧
     Forall (λ ev, call_error st ev = None) t0 ∧
     call_error st ev = Some cause ∧
     failure_context (last t0) ev = Some (text, path) ∧
     Unwrap e = Some cause ∧
     Error e = message_of text path cause ∧
     (∀ p, path = Some p →
        contains (Error e) p = true ∧
        (In p (input_files unsignedCorimFile keyFile metaFile
                 certFile intermediatesFile) ∨
         destination unsignedCorimFile outputFile p))) ∨
  (Error e = "cannot add intermediate certificates without a signing certificate" ∧
   Unwrap e = None ∧
   Forall (λ ev, call_error st ev = None) t ∧
   missing certFile ∧ supplied intermediatesFile).
Proof.
  intros Hrun.
  destruct (sign_failure_stage _ _ _ _ _ _ _ _ _ _ Hrun)
    as [(t0 & ev & cause & text & path & Ht & Hok & Hcause & Hctx & -> & Hfile)
       | (-> & Hok & Hc & Hi)].
  - left. exists t0, ev, cause, text, path.
    split_and!; [done | done | done | done | done | | ].
    + destruct path as [p|]; cbn [Error Errorf_w message_of]; [|done].
      by rewrite !append_assoc.
    + intros p ->. split; [apply Errorf_w_names_path | by apply Hfile].
  - right. done.
Qed.



(** C10, as the code has it.  When intermediates are given without a
    signing certificate, the only files [sign] reads are the manifest, the
    metadata and the key, in that order and stopping at the first failure:
    no read is ever issued for the intermediates file, and that name is not
    touched unless one of the three inputs carries it.  When those three load,
    decode and validate, [sign] returns the missing-certificate error,
    whatever the intermediates file is and whether it exists; when one of
    them fails, [sign] returns the error of that step instead. *)
Theorem sign_guard_before_intermediates_read
    (unsignedCorimFile keyFile metaFile : string)
    (outputFile certFile intermediatesFile : option string) st st' t r :
  missing certFile →
  supplied intermediatesFile →
  sign unsignedCorimFile keyFile metaFile outputFile certFile intermediatesFile st
    = (st', t, r) →
  reads t `prefix_of` [unsignedCorimFile; metaFile; keyFile] ∧
  (deref intermediatesFile ∉ [unsignedCorimFile; metaFile; keyFile] →
   ¬ In (EvReadFile (deref intermediatesFile)) t) ∧
  (front_ok (st_fs st) unsignedCorimFile keyFile metaFile →
   reads t = [unsignedCorimFile; metaFile; keyFile] ∧
   r = Err (Errorf
     "cannot add intermediate certificates without a signing certificate")) ∧
  (¬ front_ok (st_fs st) unsignedCorimFile keyFile metaFile →
   ∃ stage cause,
     In stage ["error loading unsigned CoRIM from " +:+ unsignedCorimFile +:+ ": ";
               "error decoding unsigned CoRIM from " +:+ unsignedCorimFile +:+ ": ";
               "error validating CoRIM: ";
               "error loading CoRIM Meta from " +:+ metaFile +:+ ": ";
               "error decoding CoRIM Meta from " +:+ metaFile +:+ ": ";
               "error validating CoRIM Meta: ";
               "error loading signing key from " +:+ keyFile +:+ ": "] ∧
     r = Err (Errorf_w stage cause)).
Proof.
  intros Hc%nilOrEmpty_true Hi%nilOrEmpty_false Hrun.
  unfold sign in Hrun. rewrite Hc, Hi in Hrun. run_sign_in Hrun.
  all: split_and!;
    [ by (eexists; simpl; reflexivity)
    | intros Hnot Hin; simpl in Hin;
      repeat (destruct Hin as [Hin | Hin]; simplify_eq/=); try done;
      apply Hnot; set_solver
    | intros (? & ? & ? & ? & ? & ? & ? & ? & ? & ? & ? & ? & ? & ?);
      first [done | exfalso; congruence]
    | intros Hnot; try (exfalso; apply Hnot; by repeat eexists);
      eexists _, _; (split; [pick_in|]); reflexivity ].
Qed.

(** C2, as the code has it.  When intermediates are given without a signing
    certificate, [sign] always fails, signs nothing, writes nothing and
    leaves the state as it was; its error is the missing-certificate message
    whenever the manifest, the metadata and the key load, decode and
    validate.  And in every run, intermediates are attached only after a
    signing certificate was attached successfully, to the [SignedCorim] that
    this attachment returned. *)
Theorem sign_intermediates_need_cert
    (unsignedCorimFile keyFile metaFile : string)
    (outputFile certFile intermediatesFile : option string) st st' t r :
  sign unsignedCorimFile keyFile metaFile outputFile certFile intermediatesFile st
    = (st', t, r) →
  (missing certFile → supplied intermediatesFile →
   (∃ e, r = Err e) ∧
   Forall (λ ev, is_envelope_step ev = false) t ∧
   st' = st ∧
   (front_ok (st_fs st) unsignedCorimFile keyFile metaFile →
    r = Err (Errorf
      "cannot add intermediate certificates without a signing certificate"))) ∧
  (∀ s1 der,
     In (EvAddIntermediateCerts s1 der) t →
     supplied certFile ∧
     ∃ t0 s0 certDER rest,
       t = t0 ++ [EvAddSigningCert s0 certDER; EvReadFile (deref intermediatesFile);
                  EvAddIntermediateCerts s1 der] ++ rest ∧
       AddSigningCert s0 certDER = Ok s1).
Proof.
  intros Hrun. split.
  - intros Hc%nilOrEmpty_true Hi%nilOrEmpty_false.
    unfold sign in Hrun. rewrite Hc, Hi in Hrun. run_sign_in Hrun.
    all: split_and!;
      [ by eexists | by repeat constructor | done
      | intros (? & ? & ? & ? & ? & ? & ? & ? & ? & ? & ? & ? & ? & ?);
        first [done | exfalso; congruence] ].
  - intros s1 der Hin.
    destruct (nilOrEmpty certFile) eqn:Hc.
    + exfalso. unfold sign in Hrun. rewrite Hc in Hrun. run_sign_in Hrun.
      all: simpl in Hin; repeat (destruct Hin as [Hin | Hin]; simplify_eq/=).
      all: done.
    + split; [by apply nilOrEmpty_false|].
      unfold sign in Hrun. rewrite Hc in Hrun. run_sign_in Hrun.
      all: simpl in Hin; repeat (destruct Hin as [Hin | Hin]; simplify_eq/=).
      all: try done.
      all: eexists (_ :: _ :: _ :: _ :: _ :: _ :: _ :: _ :: _ :: _ :: []), _, _, _;
        split; [reflexivity | done].
Qed.

(** * Further properties of [sign] and [RunE] *)

(** X1. [sign] stops at the first call that fails and hands that call's
    error on, wrapped once: in a failing run every call before the last one
    succeeded, and the cause found by unwrapping the returned error is the
    very error the last call returned.  The one exception is the guard on
    intermediates, which fails after successful calls only and wraps
    nothing.  In a successful run no call failed. *)
Theorem sign_wraps_first_failure
    (unsignedCorimFile keyFile metaFile : string)
    (outputFile certFile intermediatesFile : option string) st st' t r :
  sign unsignedCorimFile keyFile metaFile outputFile certFile intermediatesFile st
    = (st', t, r) →
  (∀ path, r = Ok path → Forall (λ ev, call_error st ev = None) t) ∧
  (∀ e, r = Err e →
     (∃ t0 ev cause,
        t = t0 ++ [ev] ∧
        Forall (λ ev, call_error st ev = None) t0 ∧
        call_error st ev = Some cause ∧
        Unwrap e = Some cause) ∨
     (Forall (λ ev, call_error st ev = None) t ∧
      Unwrap e = None ∧
      missing certFile ∧ supplied intermediatesFile)).
Proof.
  intros Hrun. run_sign_in Hrun.
  all: split; [intros path [= <-] | intros e' [= <-]]; try calls_ok.
  all: try (left; eexists _, _, _;
            split_and!; [split_trace | calls_ok | | reflexivity];
            simpl;
            repeat match goal with
                   | H : ?x = _ |- context [?x] => rewrite H
                   end;
            done).
  all: right; split_and!; [calls_ok | done | | ].
  all: repeat match goal with
         | H : negb ?b = _ |- _ => destruct b eqn:?; simplify_eq/=
         end.
  all: first [by apply nilOrEmpty_true | by apply nilOrEmpty_false].
Qed.

(** X2. The files [sign] reads are its inputs, in the order manifest,
    metadata, key, signing certificate, intermediates (the last two only when
    given), each once, up to the step that fails; a successful run has read
    every one of them. *)
Theorem sign_reads_inputs_in_order
    (unsignedCorimFile keyFile metaFile : string)
    (outputFile certFile intermediatesFile : option string) st st' t r :
  sign unsignedCorimFile keyFile metaFile outputFile certFile intermediatesFile st
    = (st', t, r) →
  reads t `prefix_of`
    input_files unsignedCorimFile keyFile metaFile certFile intermediatesFile ∧
  (∀ path,
     r = Ok path →
     reads t
     = input_files unsignedCorimFile keyFile metaFile certFile intermediatesFile).
Proof.
  intros Hrun. unfold input_files, sign in *.
  destruct (nilOrEmpty certFile), (nilOrEmpty intermediatesFile);
    run_sign_in Hrun.
  all: split; [by (simpl; eexists; reflexivity) | by intros path [= <-]].
Qed.

(** X3. [sign] cannot tell a nil path flag from an empty one: replacing the
    output path, the certificate path or the intermediates path by another
    value that is also nil or empty changes nothing in the run. *)
Theorem sign_nil_same_as_empty
    (unsignedCorimFile keyFile metaFile : string)
    (outputFile certFile intermediatesFile : option string)
    (outputFile' certFile' intermediatesFile' : option string) st :
  same_path outputFile outputFile' →
  same_path certFile certFile' →
  same_path intermediatesFile intermediatesFile' →
  sign unsignedCorimFile keyFile metaFile outputFile certFile intermediatesFile st
  = sign unsignedCorimFile keyFile metaFile outputFile' certFile' intermediatesFile' st.
Proof.
  assert (∀ p q, same_path p q →
            p = q ∨ (nilOrEmpty p = true ∧ nilOrEmpty q = true)) as Hsame.
  { intros p q [-> | [Hp Hq]]; [by left | right].
    by split; apply nilOrEmpty_true. }
  intros Ho Hc Hi. unfold sign.
  destruct (Hsame _ _ Ho) as [<- | [-> ->]],
           (Hsame _ _ Hc) as [<- | [-> ->]],
           (Hsame _ _ Hi) as [<- | [-> ->]]; reflexivity.
Qed.

(** X4. Whenever [Sign] is called, it is called with the signer built from
    the contents of the key file, on the [SignedCorim] made of the manifest
    decoded from the manifest file and the metadata decoded from the metadata
    file, both accepted by [Valid], to which the contents of the certificate
    file and then of the intermediates file have been attached when those
    paths were given, and nothing else. *)
Theorem sign_signs_what_was_loaded
    (unsignedCorimFile keyFile metaFile : string)
    (outputFile certFile intermediatesFile : option string) st st' t r :
  sign unsignedCorimFile keyFile metaFile outputFile certFile intermediatesFile st
    = (st', t, r) →
  ∀ s signer,
    In (EvSign s signer) t →
    ∃ cbor c json m jwk s1,
      ReadFile (st_fs st) unsignedCorimFile = Ok cbor ∧
      UnsignedCorim_FromCBOR cbor = Ok c ∧
      UnsignedCorim_Valid c = None ∧
      ReadFile (st_fs st) metaFile = Ok json ∧
      Meta_FromJSON json = Ok m ∧
      Meta_Valid m = None ∧
      ReadFile (st_fs st) keyFile = Ok jwk ∧
      NewSignerFromJWK jwk = Ok signer ∧
      (if nilOrEmpty certFile then s1 = SignedCorim_lit c m
       else ∃ der,
         ReadFile (st_fs st) (deref certFile) = Ok der ∧
         AddSigningCert (SignedCorim_lit c m) der = Ok s1) ∧
      (if nilOrEmpty intermediatesFile then s = s1
       else ∃ der,
         ReadFile (st_fs st) (deref intermediatesFile) = Ok der ∧
         AddIntermediateCerts s1 der = Ok s).
Proof.
  intros Hrun s signer Hin. unfold sign in Hrun.
  destruct (nilOrEmpty certFile), (nilOrEmpty intermediatesFile);
    run_sign_in Hrun.
  all: simpl in Hin; repeat (destruct Hin as [Hin | Hin]; simplify_eq/=);
    try done.
  all: eexists _, _, _, _, _, _; split_and!; by eauto.
Qed.

(** X5. [sign] draws from the random source only through [Sign], and calls
    [Sign] at most once: either the trace has no [Sign] and the random source
    is as it was, or it has exactly one and the random source is the one that
    call left. *)
Theorem sign_draws_once
    (unsignedCorimFile keyFile metaFile : string)
    (outputFile certFile intermediatesFile : option string) st st' t r :
  sign unsignedCorimFile keyFile metaFile outputFile certFile intermediatesFile st
    = (st', t, r) →
  (List.filter is_sign t = [] ∧ st_rand st' = st_rand st) ∨
  (∃ s signer,
     List.filter is_sign t = [EvSign s signer] ∧
     st_rand st' = (Sign s signer (st_rand st)).2).
Proof.
  intros Hrun. run_sign_in Hrun.
  all: try (by left).
  all: right; eexists _, _; split; [reflexivity|].
  all: repeat match goal with
         | H : Sign _ _ _ = _ |- _ => rewrite H
         end; done.
Qed.

(** X6. On a filesystem where a file written without error reads back as
    written, the path a successful [sign] returns holds the very bytes that
    [Sign] returned in that run. *)
Theorem sign_output_reads_back `{!FsReadBack fsI}
    (unsignedCorimFile keyFile metaFile : string)
    (outputFile certFile intermediatesFile : option string) st st' t path :
  sign unsignedCorimFile keyFile metaFile outputFile certFile intermediatesFile st
    = (st', t, Ok path) →
  ∃ s signer rand' envelope,
    In (EvSign s signer) t ∧
    Sign s signer (st_rand st) = (Ok envelope, rand') ∧
    ReadFile (st_fs st') path = Ok envelope.
Proof.
  intros Hrun. run_sign_in Hrun.
  all: eexists _, _, _, _; split_and!;
    [ simpl; auto 20 | eassumption | by eapply write_read ].
Qed.

Lemma checkCorimSignArgs_None (flags : Flags) :
  checkCorimSignArgs flags = None →
  supplied (corimSignCorimFile flags) ∧
  supplied (corimSignKeyFile flags) ∧
  supplied (corimSignMetaFile flags).
Proof.
  unfold checkCorimSignArgs.
  destruct (nilOrEmpty (corimSignCorimFile flags)) eqn:Hc; [done|].
  destruct (nilOrEmpty (corimSignKeyFile flags)) eqn:Hk; [done|].
  destruct (nilOrEmpty (corimSignMetaFile flags)) eqn:Hm; [done|].
  intros _. by split_and!; apply nilOrEmpty_false.
Qed.

(** X7. The command prints its confirmation only when it succeeds, as its
    last step, directly after the write that succeeded, and the message
    names the manifest path given and the path that was written.  When the
    command fails it prints nothing, and its error is the error of
    [checkCorimSignArgs] or the error of [sign], unchanged. *)
Theorem RunE_reports_written_file (flags : Flags) st st' t (r : result unit) :
  RunE flags st = (st', t, r) →
  (r = Ok tt →
   ∃ corimFile coseFile t0 data,
     corimSignCorimFile flags = Some corimFile ∧
     t = t0 ++ [EvWriteFile coseFile data; EvPrintf corimFile coseFile] ∧
     Forall (λ ev, is_printf ev = false) t0 ∧
     WriteFile (st_fs st) coseFile data 420%N = (st_fs st', None) ∧
     sign corimFile (deref (corimSignKeyFile flags))
          (deref (corimSignMetaFile flags)) (corimSignOutputFile flags)
          (corimSignCertFile flags) (corimSignIntermediateCerts flags) st
     = (st', t0 ++ [EvWriteFile coseFile data], Ok coseFile)) ∧
  (∀ e,
     r = Err e →
     Forall (λ ev, is_printf ev = false) t ∧
     (checkCorimSignArgs flags = Some e ∧ t = [] ∧ st' = st ∨
      checkCorimSignArgs flags = None ∧
      sign (deref (corimSignCorimFile flags)) (deref (corimSignKeyFile flags))
           (deref (corimSignMetaFile flags)) (corimSignOutputFile flags)
           (corimSignCertFile flags) (corimSignIntermediateCerts flags) st
      = (st', t, Err e))).
Proof.
  unfold RunE. destruct (checkCorimSignArgs flags) as [err|] eqn:Hcheck.
  { intros [= <- <- <-]. split; [done|]. intros e [= <-].
    split; [constructor | by left]. }
  apply checkCorimSignArgs_None in Hcheck as ((c & Hc & _) & _ & _).
  rewrite Hc. simpl deref at 1 5. unfold bind at 1, printf.
  destruct (sign _ _ _ _ _ _ st) as [[st1 t1] [coseFile | e1]] eqn:Hsign;
    intros [= <- <- <-].
  - split; [intros _ | done].
    pose proof Hsign as Hrun. run_sign_in Hrun.
    all: eexists _, _, _, _; split_and!;
      [ done
      | simpl; split_trace
      | simpl; by repeat constructor
      | eassumption
      | exact Hsign ].
  - split; [done|]. intros e [= <-]. split; [|by right].
    pose proof Hsign as Hrun. run_sign_in Hrun; by repeat constructor.
Qed.

(** X8. [sign] succeeds exactly when its write does: it returns a path if
    and only if it called [WriteFile] on that path and the call reported no
    error.  The path it returns is never empty. *)
Theorem sign_succeeds_iff_written
    (unsignedCorimFile keyFile metaFile : string)
    (outputFile certFile intermediatesFile : option string) st st' t r :
  sign unsignedCorimFile keyFile metaFile outputFile certFile intermediatesFile st
    = (st', t, r) →
  ∀ path,
    (r = Ok path ↔
     ∃ data,
       In (EvWriteFile path data) t ∧
       (WriteFile (st_fs st) path data 420%N).2 = None) ∧
    (r = Ok path → path ≠ "").
Proof.
  intros Hrun path.
  pose proof (destination_intro unsignedCorimFile outputFile) as [Hmiss Hsup].
  assert ((if nilOrEmpty outputFile then "signed-" +:+ unsignedCorimFile
           else deref outputFile) ≠ "") as Hne.
  { destruct (nilOrEmpty outputFile) eqn:Ho; [done|].
    apply nilOrEmpty_false in Ho as (o & -> & Ho). done. }
  clear Hmiss Hsup. run_sign_in Hrun.
  all: split; [split|]; try (by intros [= <-]); try done.
  all: try (intros (data & Hin & Hw); simpl in Hin;
            repeat (destruct Hin as [Hin | Hin]; simplify_eq/=); try done;
            repeat match goal with
                   | H : WriteFile _ _ _ _ = _ |- _ =>
                       rewrite H in Hw; simpl in Hw
                   end; by simplify_eq/=).
  all: intros [= <-]; eexists; split; [simpl; auto 20|].
  all: repeat match goal with
         | H : WriteFile _ _ _ _ = _ |- _ => rewrite H
         end; done.
Qed.

End Properties.

(** ** The statements at concrete inputs *)

(** C1 on a manifest that decodes but is not valid. *)
Lemma sign_validates_before_signer_witness :
  let out := Stub.run "bad.cbor" "key.jwk" "meta.json" None None None Stub.start in
  out.1.1 = Stub.start ∧
  out.1.2 = [EvReadFile "bad.cbor"; EvFromCBOR (Stub.b "!CORIM");
             EvCorimValid (Stub.b "!CORIM" : @UnsignedCorim Stub.lib)] ∧
  out.2 = Err (Errorf_w "error validating CoRIM: " (errorString "invalid CoRIM")).
Proof.
  apply (proj1 (sign_validates_before_signer (fsI:=MemMapFs) (lib:=Stub.lib)
           "bad.cbor" "key.jwk" "meta.json" None None None Stub.start _ _ _ eq_refl)
           (Stub.b "!CORIM") (Stub.b "!CORIM") (errorString "invalid CoRIM"));
    reflexivity.
Defined.

(** C7 on a run with a signing certificate and intermediates. *)
Lemma sign_step_order_witness :
  ∃ cbor c json m jwk signer certDER s1 intermediatesDER s2 envelope,
    (Stub.run "corim.cbor" "key.jwk" "meta.json" None
       (Some "cert.der") (Some "chain.der") Stub.start).1.2
    = [EvReadFile "corim.cbor"; EvFromCBOR cbor; EvCorimValid c;
       EvReadFile "meta.json"; EvFromJSON json; EvMetaValid m;
       EvReadFile "key.jwk"; EvNewSignerFromJWK jwk;
       EvSignedCorim (SignedCorim_lit c m);
       EvReadFile "cert.der"; EvAddSigningCert (SignedCorim_lit c m) certDER;
       EvReadFile "chain.der"; EvAddIntermediateCerts s1 intermediatesDER;
       EvSign s2 signer; EvWriteFile "signed-corim.cbor" envelope].
Proof.
  destruct (sign_step_order (fsI:=MemMapFs) (lib:=Stub.lib)
              "corim.cbor" "key.jwk" "meta.json" None (Some "cert.der") (Some "chain.der")
              Stub.start _ _ "signed-corim.cbor" eq_refl)
    as (cbor & c & json & m & jwk & signer & certDER & s1 & iDER & s2 & envelope & Ht & _).
  by exists cbor, c, json, m, jwk, signer, certDER, s1, iDER, s2, envelope.
Defined.

(** C5 with an empty key path. *)
Lemma RunE_requires_paths_witness :
  ∃ e,
    RunE (fsI:=MemMapFs) (lib:=Stub.lib)
      (mkFlags (Some "corim.cbor") (Some "") None (Some "meta.json") None None)
      Stub.start
    = (Stub.start, [], Err e) ∧
    Error e = "no key supplied".
Proof.
  destruct (RunE_requires_paths (fsI:=MemMapFs) (lib:=Stub.lib)
              (mkFlags (Some "corim.cbor") (Some "") None (Some "meta.json") None None)
              Stub.start (or_intror (or_introl (or_intror eq_refl))))
    as (e & Hrun & [[-> Hm] | [[-> _] | [-> (_ & _ & Hk)]]]).
  - exfalso. by destruct Hm.
  - by exists (errors_New "no key supplied").
  - exfalso. by destruct Hk as (s & [= <-] & Hs).
Defined.


(** C10 (as the code has it) with an intermediates file that does not exist. *)
Lemma sign_guard_before_intermediates_read_witness :
  let out := Stub.run "corim.cbor" "key.jwk" "meta.json" None None
               (Some "absent.der") Stub.start in
  reads out.1.2 = ["corim.cbor"; "meta.json"; "key.jwk"] ∧
  out.2 = Err (Errorf
    "cannot add intermediate certificates without a signing certificate").
Proof.
  intros out.
  assert (supplied (Some "absent.der")) as Hs by (by exists "absent.der").
  assert (front_ok (fsI:=MemMapFs) (lib:=Stub.lib)
            (st_fs Stub.start) "corim.cbor" "key.jwk" "meta.json") as Hfront.
  { by exists (Stub.b "CORIM"), (Stub.b "CORIM"), (Stub.b "META"), (Stub.b "META"),
              (Stub.b "KEY"), (Stub.b "KEY"). }
  pose proof (sign_guard_before_intermediates_read (fsI:=MemMapFs) (lib:=Stub.lib)
           "corim.cbor" "key.jwk" "meta.json" None None (Some "absent.der")
           Stub.start out.1.1 out.1.2 out.2 (or_introl eq_refl) Hs eq_refl) as (_ & _ & Hok & _).
  exact (Hok Hfront).
Defined.

(** C2 (as the code has it) with an empty certificate path. *)
Lemma sign_intermediates_need_cert_witness :
  let out := Stub.run "corim.cbor" "key.jwk" "meta.json" None (Some "")
               (Some "chain.der") Stub.start in
  (∃ e, out.2 = Err e) ∧
  Forall (λ ev, is_envelope_step ev = false) out.1.2 ∧
  out.1.1 = Stub.start ∧
  (front_ok (fsI:=MemMapFs) (lib:=Stub.lib)
     (st_fs Stub.start) "corim.cbor" "key.jwk" "meta.json" →
   out.2 = Err (Errorf
     "cannot add intermediate certificates without a signing certificate")).
Proof.
  intros out.
  assert (supplied (Some "chain.der")) as Hs by (by exists "chain.der").
  pose proof (sign_intermediates_need_cert (fsI:=MemMapFs) (lib:=Stub.lib)
                  "corim.cbor" "key.jwk" "meta.json" None (Some "")
                  (Some "chain.der") Stub.start out.1.1 out.1.2 out.2 eq_refl) as [H _].
  exact (H (or_intror eq_refl) Hs).
Defined.

(** ** C3, C4, C6 and C9 at concrete inputs *)

(** The stand-in library prepares the example files for signing. *)
Lemma stub_prepared (fsI : Fs) (fs : FS) :
  ReadFile fs "corim.cbor" = Ok (Stub.b "CORIM") →
  ReadFile fs "meta.json" = Ok (Stub.b "META") →
  ReadFile fs "key.jwk" = Ok (Stub.b "KEY") →
  prepared (fsI:=fsI) (lib:=Stub.lib) fs "corim.cbor" "key.jwk" "meta.json"
    None None (Stub.mkSigned (Stub.b "CORIM") (Stub.b "META") []) (Stub.b "KEY").
Proof.
  intros H1 H2 H3.
  by exists (Stub.b "CORIM"), (Stub.b "CORIM"), (Stub.b "META"), (Stub.b "META"),
            (Stub.b "KEY"), (Stub.mkSigned (Stub.b "CORIM") (Stub.b "META") []).
Defined.


(** C4 without and with an output path: the run writes the envelope under
    the name the theorem gives and returns that name. *)
Lemma sign_output_path_witness :
  (let out := Stub.run "corim.cbor" "key.jwk" "meta.json" None None None
                Stub.start in
   ∃ t0 s signer,
     out.1.2 = t0 ++ [EvSign s signer;
                      EvWriteFile "signed-corim.cbor" (Stub.b "CORIMMETAKEY")] ∧
     out.2 = Ok "signed-corim.cbor") ∧
  (let out := Stub.run "corim.cbor" "key.jwk" "meta.json" (Some "out/x.cose")
                None None Stub.start in
   ∃ t0 s signer,
     out.1.2 = t0 ++ [EvSign s signer;
                      EvWriteFile "out/x.cose" (Stub.b "CORIMMETAKEY")] ∧
     out.2 = Ok "out/x.cose").
Proof.
  pose proof (stub_prepared MemMapFs (st_fs Stub.start) eq_refl eq_refl eq_refl)
    as Hprep.
  split; intros out.
  - destruct (sign_output_path (fsI:=MemMapFs) (lib:=Stub.lib)
                "corim.cbor" "key.jwk" "meta.json" None None None
                Stub.start out.1.1 out.1.2 out.2 eq_refl) as [H _].
    destruct (H _ _ (Stub.b "CORIMMETAKEY") 7%N Hprep eq_refl)
      as (name & t0 & [Hd _] & Ht & _ & Hr).
    rewrite (Hd (or_introl eq_refl)) in Ht, Hr.
    by eexists t0, _, _.
  - destruct (sign_output_path (fsI:=MemMapFs) (lib:=Stub.lib)
                "corim.cbor" "key.jwk" "meta.json" (Some "out/x.cose") None None
                Stub.start out.1.1 out.1.2 out.2 eq_refl) as [H _].
    destruct (H _ _ (Stub.b "CORIMMETAKEY") 7%N Hprep eq_refl)
      as (name & t0 & [_ Hd] & Ht & _ & Hr).
    rewrite (Hd "out/x.cose" eq_refl) in Ht, Hr by discriminate.
    by eexists t0, _, _.
Defined.

(** C6 (as the code has it) on a metadata file that does not exist: the
    failing call is the read that follows the validation of the manifest, and
    the message is the one for loading the metadata, with the name of that
    file. *)
Lemma sign_error_context_witness :
  let out := Stub.run "corim.cbor" "key.jwk" "absent.json" None None None
               Stub.start in
  ∃ e t0,
    out.2 = Err e ∧
    out.1.2 = t0 ++ [EvReadFile "absent.json"] ∧
    Error e
    = message_of "error loading CoRIM Meta from " (Some "absent.json")
        (errorString "open absent.json: file does not exist") ∧
    contains (Error e) "absent.json" = true.
Proof.
  intros out.
  destruct (sign_error_context (fsI:=MemMapFs) (lib:=Stub.lib)
              "corim.cbor" "key.jwk" "absent.json" None None None
              Stub.start out.1.1 out.1.2 _ eq_refl)
    as [(t0 & ev & cause & text & path & Ht & _ & Hcause & Hctx & _ & Hmsg & Hfile)
       | (Hmsg & _)];
    [|discriminate Hmsg].
  apply (app_inj_tail
           [EvReadFile "corim.cbor"; EvFromCBOR (Stub.b "CORIM");
            EvCorimValid (Stub.b "CORIM" : @UnsignedCorim Stub.lib)]
           t0 (EvReadFile "absent.json") ev) in Ht as [<- <-].
  injection Hctx as <- <-. injection Hcause as <-.
  eexists _, [EvReadFile "corim.cbor"; EvFromCBOR (Stub.b "CORIM");
              EvCorimValid (Stub.b "CORIM" : @UnsignedCorim Stub.lib)].
  split_and!; [reflexivity | reflexivity | exact Hmsg |].
  by apply (Hfile "absent.json").
Defined.


(** ** Inputs at which a sentence of the specification, read to the letter, fails *)

(** C2 to the letter fails: intermediates without a certificate, but the
    manifest file does not exist, so the error is the loading error and not
    the missing-certificate message. *)
Lemma intermediates_without_cert_other_error :
  missing None ∧ supplied (Some "chain.der") ∧
  ∃ e,
    (Stub.run "absent.cbor" "key.jwk" "meta.json" None None (Some "chain.der")
       Stub.start).2 = Err e ∧
    Error e = "error loading unsigned CoRIM from absent.cbor: open absent.cbor: file does not exist" ∧
    Error e ≠ "cannot add intermediate certificates without a signing certificate".
Proof.
  split_and!; [by left | by exists "chain.der" |].
  eexists. split_and!; [reflexivity | reflexivity | discriminate].
Qed.

(** C6 to the letter fails: the validation error of [sign] names none of the
    paths the run was given. *)
Lemma validation_error_names_no_path :
  ∃ e,
    (Stub.run "bad.cbor" "key.jwk" "meta.json" (Some "out.cbor") None None
       Stub.start).2 = Err e ∧
    Error e = "error validating CoRIM: invalid CoRIM" ∧
    Forall (λ path, contains (Error e) path = false)
      ["bad.cbor"; "key.jwk"; "meta.json"; "out.cbor"].
Proof.
  eexists. split_and!; [reflexivity | reflexivity | by repeat constructor].
Qed.


(** C10 to the letter fails: intermediates without a certificate, but the
    metadata is not valid, so [sign] returns the validation error and not the
    missing-certificate error. *)
Lemma guard_not_reached_on_bad_meta :
  missing None ∧ supplied (Some "absent.der") ∧
  ∃ e,
    (Stub.run "corim.cbor" "key.jwk" "bad.json" None None (Some "absent.der")
       Stub.start).2 = Err e ∧
    Error e = "error validating CoRIM Meta: invalid Meta" ∧
    Error e ≠ "cannot add intermediate certificates without a signing certificate".
Proof.
  split_and!; [by left | by exists "absent.der" |].
  eexists. split_and!; [reflexivity | reflexivity | discriminate].
Qed.

(** ** The signer's determinism is needed for C8 *)

(** With a signer that draws a nonce, the same files and arguments give
    different envelopes from different random sources. *)
Lemma randomized_signer_envelopes_differ :
  ¬ deterministic_signer (H:=Stub.lib_rand) ∧
  ∃ env1 env2,
    In (EvWriteFile "signed-corim.cbor" env1)
       (sign (fsI:=MemMapFs) (lib:=Stub.lib_rand)
          "corim.cbor" "key.jwk" "meta.json" None None None
          (@mkState MemMapFs Stub.lib_rand Stub.files 7%N)).1.2 ∧
    In (EvWriteFile "signed-corim.cbor" env2)
       (sign (fsI:=MemMapFs) (lib:=Stub.lib_rand)
          "corim.cbor" "key.jwk" "meta.json" None None None
          (@mkState MemMapFs Stub.lib_rand Stub.files 99%N)).1.2 ∧
    env1 ≠ env2.
Proof.
  split.
  - intros Hdet.
    specialize (Hdet (Stub.mkSigned [] [] []) [] 7%N 99%N). discriminate Hdet.
  - eexists _, _. split_and!.
    + do 10 right. left. reflexivity.
    + do 10 right. left. reflexivity.
    + discriminate.
Qed.


(** ** The further properties at concrete inputs *)

(** The in-memory filesystem reads back what it wrote. *)
#[global] Instance MemMapFs_read_back : FsReadBack MemMapFs.
Proof.
  intros fs fs' name data perm [= <-]. simpl.
  by rewrite lookup_insert_eq.
Qed.

(** X1 on metadata that decodes but is not valid. *)
Lemma sign_wraps_first_failure_witness :
  let out := Stub.run "corim.cbor" "key.jwk" "bad.json" None None None
               Stub.start in
  ∃ e t0 ev,
    out.2 = Err e ∧
    out.1.2 = t0 ++ [ev] ∧
    call_error Stub.start ev = Some (errorString "invalid Meta") ∧
    Unwrap e = Some (errorString "invalid Meta").
Proof.
  intros out.
  destruct (sign_wraps_first_failure (fsI:=MemMapFs) (lib:=Stub.lib)
              "corim.cbor" "key.jwk" "bad.json" None None None
              Stub.start out.1.1 out.1.2 out.2 eq_refl) as [_ H].
  destruct (H _ eq_refl)
    as [(t0 & ev & cause & Ht & _ & Hc & Hu) | (_ & Hu & _)];
    [|discriminate Hu].
  injection Hu as <-. by eexists _, t0, ev.
Defined.

(** X2 on a run with a signing certificate and intermediates. *)
Lemma sign_reads_inputs_in_order_witness :
  reads (Stub.run "corim.cbor" "key.jwk" "meta.json" None
           (Some "cert.der") (Some "chain.der") Stub.start).1.2
  = ["corim.cbor"; "meta.json"; "key.jwk"; "cert.der"; "chain.der"].
Proof.
  exact (proj2 (sign_reads_inputs_in_order (fsI:=MemMapFs) (lib:=Stub.lib)
                  "corim.cbor" "key.jwk" "meta.json" None
                  (Some "cert.der") (Some "chain.der")
                  Stub.start _ _ _ eq_refl) "signed-corim.cbor" eq_refl).
Defined.

(** X3 with every optional path nil on one side and empty on the other. *)
Lemma sign_nil_same_as_empty_witness :
  Stub.run "corim.cbor" "key.jwk" "meta.json" None None None Stub.start
  = Stub.run "corim.cbor" "key.jwk" "meta.json" (Some "") (Some "") (Some "")
      Stub.start.
Proof.
  apply (sign_nil_same_as_empty (fsI:=MemMapFs) (lib:=Stub.lib));
    right; split; first [by left | by right].
Defined.

(** X4 on a run with a signing certificate. *)
Lemma sign_signs_what_was_loaded_witness :
  ∃ cbor c json m jwk der,
    ReadFile (Fs:=MemMapFs) (st_fs Stub.start) "corim.cbor" = Ok cbor ∧
    UnsignedCorim_FromCBOR (CorimLib:=Stub.lib) cbor = Ok c ∧
    ReadFile (Fs:=MemMapFs) (st_fs Stub.start) "meta.json" = Ok json ∧
    Meta_FromJSON (CorimLib:=Stub.lib) json = Ok m ∧
    ReadFile (Fs:=MemMapFs) (st_fs Stub.start) "key.jwk" = Ok jwk ∧
    NewSignerFromJWK (CorimLib:=Stub.lib) jwk = Ok (Stub.b "KEY") ∧
    ReadFile (Fs:=MemMapFs) (st_fs Stub.start) "cert.der" = Ok der ∧
    AddSigningCert (CorimLib:=Stub.lib) (SignedCorim_lit c m) der
    = Ok (Stub.mkSigned (Stub.b "CORIM") (Stub.b "META") [Stub.b "LEAF"]).
Proof.
  assert (In (EvSign (lib:=Stub.lib)
                (Stub.mkSigned (Stub.b "CORIM") (Stub.b "META") [Stub.b "LEAF"])
                (Stub.b "KEY"))
             (Stub.run "corim.cbor" "key.jwk" "meta.json" None
                (Some "cert.der") None Stub.start).1.2) as Hin.
  { do 11 right. left. reflexivity. }
  destruct (sign_signs_what_was_loaded (fsI:=MemMapFs) (lib:=Stub.lib)
              "corim.cbor" "key.jwk" "meta.json" None (Some "cert.der") None
              Stub.start _ _ _ eq_refl _ _ Hin)
    as (cbor & c & json & m & jwk & s1 & H1 & H2 & _ & H3 & H4 & _ & H5 & H6
        & (der & H7 & H8) & <-).
  by exists cbor, c, json, m, jwk, der.
Defined.

(** X5 on a run that signs. *)
Lemma sign_draws_once_witness :
  let out := Stub.run "corim.cbor" "key.jwk" "meta.json" None None None
               Stub.start in
  (List.filter is_sign out.1.2 = [] ∧ st_rand out.1.1 = st_rand Stub.start) ∨
  (∃ s signer,
     List.filter is_sign out.1.2 = [EvSign s signer] ∧
     st_rand out.1.1 = (Sign s signer (st_rand Stub.start)).2).
Proof.
  exact (sign_draws_once (fsI:=MemMapFs) (lib:=Stub.lib)
           "corim.cbor" "key.jwk" "meta.json" None None None
           Stub.start _ _ _ eq_refl).
Defined.

(** X6 on the in-memory filesystem. *)
Lemma sign_output_reads_back_witness :
  let out := Stub.run "corim.cbor" "key.jwk" "meta.json" None None None
               Stub.start in
  ∃ s signer rand' envelope,
    In (EvSign s signer) out.1.2 ∧
    Sign s signer (st_rand Stub.start) = (Ok envelope, rand') ∧
    ReadFile (Fs:=MemMapFs) (st_fs out.1.1) "signed-corim.cbor" = Ok envelope.
Proof.
  exact (sign_output_reads_back (fsI:=MemMapFs) (lib:=Stub.lib)
           "corim.cbor" "key.jwk" "meta.json" None None None
           Stub.start _ _ "signed-corim.cbor" eq_refl).
Defined.

(** X7 on a command line that gives the three required paths. *)
Lemma RunE_reports_written_file_witness :
  let out := RunE (fsI:=MemMapFs) (lib:=Stub.lib)
               (mkFlags (Some "corim.cbor") (Some "key.jwk") (Some "")
                  (Some "meta.json") (Some "") (Some ""))
               Stub.start in
  ∃ t0 data,
    out.1.2 = t0 ++ [EvWriteFile "signed-corim.cbor" data;
                     EvPrintf "corim.cbor" "signed-corim.cbor"].
Proof.
  intros out.
  destruct (RunE_reports_written_file (fsI:=MemMapFs) (lib:=Stub.lib)
              (mkFlags (Some "corim.cbor") (Some "key.jwk") (Some "")
                 (Some "meta.json") (Some "") (Some ""))
              Stub.start out.1.1 out.1.2 out.2 eq_refl) as [H _].
  destruct (H eq_refl) as (c & p & t0 & data & [= <-] & Ht & _ & _ & Hs).
  assert (p = "signed-corim.cbor") as -> by (by injection Hs).
  by exists t0, data.
Defined.

(** X8 on a run whose write succeeds. *)
Lemma sign_succeeds_iff_written_witness :
  (Stub.run "corim.cbor" "key.jwk" "meta.json" None None None Stub.start).2
  = Ok "signed-corim.cbor".
Proof.
  destruct (sign_succeeds_iff_written (fsI:=MemMapFs) (lib:=Stub.lib)
              "corim.cbor" "key.jwk" "meta.json" None None None
              Stub.start _ _ _ eq_refl "signed-corim.cbor") as [[_ Hback] _].
  apply Hback. eexists. split; [do 10 right; left; reflexivity | reflexivity].
Defined.
